(** * tree-sitter-coral: the Node.js binding (bindings/node/binding.cc)

    The binding is one initialisation routine, [Init], which
    NODE_API_MODULE registers as the function the host calls, with its
    environment and the module's exports value, when it loads the module.
    [Init] writes a fixed name and the grammar handle obtained from the
    external entry point [tree_sitter_coral] into that value and returns
    it.

    The host runtime is modelled as a heap of JavaScript objects whose
    properties carry their attributes, so that a store can take effect, be
    silently ignored, or run a setter that throws; the grammar library as
    an abstract static state on which the entry point acts.  [Init] is
    written in a small state, exception and trace monad so that the order of
    its effects can be stated.

    Objects have own properties only: a prototype chain that defines "name"
    or "language", and proxies, are outside the model. *)

From stdpp Require Import gmap strings list fin_maps.
From Stdlib Require Import ZArith.

Open Scope Z_scope.

#[local] Set Warnings "-clear-no-such-hyp".

(** ** Values of the host runtime *)

(** Where an object lives in the host heap. *)
Definition address := positive.

(** [Napi::Env]: the environment a native call runs in. *)
Definition Napi_Env := positive.

(** [TSLanguage *]: the pointer-sized opaque handle on the compiled grammar.
    [TSLanguage] is only declared, never defined, in the binding. *)
Definition TSLanguage_ptr := Z.

Definition nullptr : TSLanguage_ptr := 0.

(** JavaScript values.  An external is an object of its own: [id] is its
    identity, the serial number it got when it was created, and [data] the
    pointer it wraps.  Two externals that wrap one pointer are two values. *)
Inductive value : Type :=
  | JSUndefined
  | JSNull
  | JSBoolean (b : bool)
  | JSNumber (n : Z)
  | JSString (s : string)
  | JSExternal (id : nat) (data : TSLanguage_ptr)
  | JSObject (o : address).

#[global] Instance value_eq_dec : EqDecision value.
Proof. solve_decision. Defined.

(** [Napi::Object] wraps a value of the host and checks nothing about it. *)
Definition Napi_Object := value.

(** An own property of an object: a data property with its value and its
    [writable] attribute, or an accessor with the setter it has, if any.  A
    setter is code of the host's user, named by a number. *)
Inductive property : Type :=
  | Data (v : value) (writable : bool)
  | Accessor (setter : option nat).

(** An object: its own properties and whether new ones can be added.  A
    frozen object has read-only properties and is not extensible. *)
Record object : Type := Object {
  props : gmap string property;
  extensible : bool;
}.

(** What a failed N-API call throws out of [Init]. *)
Inductive exception : Type :=
  | ObjectExpected
  | Thrown (v : value).

(** [Napi::String::New(env, s)] *)
Definition Napi_String_New (env : Napi_Env) (s : string) : value := JSString s.

(** [Napi::External<T>::Data()], what a consumer of the export reads back. *)
Definition External_Data (v : value) : option TSLanguage_ptr :=
  match v with
  | JSExternal _ data => Some data
  | _ => None
  end.

(** Does a store under [key] on this object take effect?  It does on a
    writable data property and on a key the object lacks but can still be
    given; it does not on a read-only property, on an accessor, or on a
    missing key of an object that is not extensible. *)
Definition can_store (obj : object) (key : string) : bool :=
  match props obj !! key with
  | Some (Data _ writable) => writable
  | Some (Accessor _) => false
  | None => extensible obj
  end.

(** The object after a store that runs no setter: the property holds the
    new value where the store takes effect, and nothing changes where it
    does not.  A property the store creates is writable. *)
Definition put (obj : object) (key : string) (v : value) : object :=
  if can_store obj key
  then Object (<[key := Data v true]> (props obj)) (extensible obj)
  else obj.

(** Is there no setter to run for a store under [key]? *)
Definition no_setter (obj : object) (key : string) : bool :=
  match props obj !! key with
  | Some (Accessor (Some _)) => false
  | _ => true
  end.

Section Binding.

(** The static state of the external grammar library, and its single entry
    point [extern "C" TSLanguage *tree_sitter_coral()]: no argument, a
    handle as result, possibly a change of the library's own state. *)
Context {G : Type}.
Variable tree_sitter_coral : G → TSLanguage_ptr * G.

(** The setters of the host's user: given the object stored on and the
    value stored, a setter does what it wants with the heap and either
    returns or throws. *)
Variable run_setter :
  nat → value → value → gmap address object →
  option value * gmap address object.

(** ** The state a call of [Init] runs in *)

Record world : Type := World {
  heap : gmap address object;
  externals : nat;
  grammar : G;
}.

(** The effects [Init] has on what it is given, in the order they happen:
    stores and calls of the entry point. *)
Inductive event : Type :=
  | EvSet (target : value) (key : string) (v : value)
  | EvCall (handle : TSLanguage_ptr).

(** Each effect with the world it leaves behind. *)
Definition trace : Type := list (event * world).

(** A computation returns a result or raises an exception; either way it
    leaves a world and the trace of what it did. *)
Inductive outcome (A : Type) : Type :=
  | Returns (a : A) (w : world) (t : trace)
  | Raises (e : exception) (w : world) (t : trace).

Arguments Returns {A} a w t.
Arguments Raises {A} e w t.

Definition M (A : Type) : Type := world → outcome A.

#[global] Instance M_ret : MRet M := λ A a w, Returns a w [].

#[global] Instance M_bind : MBind M := λ A B f m w,
  match m w with
  | Returns a w1 t1 =>
      match f a w1 with
      | Returns b w2 t2 => Returns b w2 (t1 ++ t2)
      | Raises e w2 t2 => Raises e w2 (t1 ++ t2)
      end
  | Raises e w1 t1 => Raises e w1 t1
  end.

(** [target[key] = v]: a store that does not throw on a property that
    refuses it.
    - On [undefined] and [null] N-API finds no object and the call fails.
    - A boolean, a number or a string is boxed; the store lands in the box,
      which nothing refers to.  An external is an object without properties
      that is not extensible.  On both the store changes nothing.
    - On an object the store runs the setter of an accessor, whose exception
      leaves [Init]; without a setter it takes effect or is ignored, see
      [put].
    A reference to no object of the heap does not occur in a running host;
    the call fails on it as it does on [undefined]. *)
Definition Object_Set (target : Napi_Object) (key : string) (v : value) : M unit :=
  λ w,
    match target with
    | JSUndefined | JSNull => Raises ObjectExpected w []
    | JSBoolean _ | JSNumber _ | JSString _ | JSExternal _ _ =>
        Returns tt w [(EvSet target key v, w)]
    | JSObject o =>
        match heap w !! o with
        | None => Raises ObjectExpected w []
        | Some obj =>
            match props obj !! key with
            | Some (Accessor (Some setter)) =>
                let '(thrown, h') := run_setter setter target v (heap w) in
                let w' := World h' (externals w) (grammar w) in
                match thrown with
                | Some e => Raises (Thrown e) w' [(EvSet target key v, w')]
                | None => Returns tt w' [(EvSet target key v, w')]
                end
            | _ =>
                let w' := World (<[o := put obj key v]> (heap w))
                            (externals w) (grammar w) in
                Returns tt w' [(EvSet target key v, w')]
            end
        end
    end.

(** The call [tree_sitter_coral()]. *)
Definition call_tree_sitter_coral : M TSLanguage_ptr :=
  λ w,
    let '(handle, g') := tree_sitter_coral (grammar w) in
    let w' := World (heap w) (externals w) g' in
    Returns handle w' [(EvCall handle, w')].

(** [Napi::External<TSLanguage>::New(env, data)]: creates a new external
    that wraps the pointer as it is; there is no check on [data]. *)
Definition Napi_External_New (env : Napi_Env) (data : TSLanguage_ptr) : M value :=
  λ w,
    Returns (JSExternal (externals w) data)
      (World (heap w) (S (externals w)) (grammar w)) [].

(** The state of the library after [n] calls of its entry point. *)
Fixpoint calls (n : nat) (g : G) : G :=
  match n with
  | O => g
  | S n' => calls n' (tree_sitter_coral g).2
  end.

(** ** [Init] *)

Definition Init (env : Napi_Env) (exports : Napi_Object) : M Napi_Object :=
  Object_Set exports "name" (Napi_String_New env "coral") ;;
  handle ← call_tree_sitter_coral ;
  language ← Napi_External_New env handle ;
  Object_Set exports "language" language ;;
  mret exports.

(** ** What a consumer observes *)

(** The own property [key] of the object at [o]. *)
Definition own_property (w : world) (o : address) (key : string) : option property :=
  heap w !! o ≫= λ obj, props obj !! key.

(** [target[key]] read back from an own data property.  What an accessor
    yields is up to its getter and is not read here. *)
Definition Object_Get (w : world) (target : value) (key : string) : option value :=
  match target with
  | JSObject o =>
      match own_property w o key with
      | Some (Data v _) => Some v
      | _ => None
      end
  | _ => None
  end.

(** The own keys of [target]. *)
Definition Object_Keys (w : world) (target : value) : gset string :=
  match target with
  | JSObject o =>
      match heap w !! o with
      | Some obj => dom (props obj)
      | None => ∅
      end
  | _ => ∅
  end.

(** A store under [key] on the object at [o] takes effect. *)
Definition writable (w : world) (o : address) (key : string) : bool :=
  match heap w !! o with
  | Some obj => can_store obj key
  | None => false
  end.

(** There is an object at [o], and a store under [key] on it runs no
    setter. *)
Definition settles (w : world) (o : address) (key : string) : bool :=
  match heap w !! o with
  | Some obj => no_setter obj key
  | None => false
  end.

End Binding.

Arguments Returns {G A} a w t.
Arguments Raises {G A} e w t.

(** ** Example grammar libraries, user code and hosts *)

(** A library whose entry point returns the address of a static table and
    keeps no state, as a generated parser does. *)
Definition static_grammar (addr : TSLanguage_ptr) : unit → TSLanguage_ptr * unit :=
  λ g, (addr, g).

(** A library that builds its table on the first call and caches it. *)
Definition cached_grammar (addr : TSLanguage_ptr)
    : option TSLanguage_ptr → TSLanguage_ptr * option TSLanguage_ptr :=
  λ g,
    match g with
    | Some built => (built, g)
    | None => (addr, Some addr)
    end.

(** The state of the caching library before its first call. *)
Definition not_built : option TSLanguage_ptr := None.

(** User code in which every setter throws and touches nothing. *)
Definition refusing_setter (setter : nat) (target v : value)
    (h : gmap address object) : option value * gmap address object :=
  (Some (JSString "denied"), h).

(** The environment and the address of the exports object a host passes at
    module load, and a second object of its heap. *)
Definition main_env : Napi_Env := 1%positive.
Definition module_exports : address := 1%positive.
Definition other_object : address := 2%positive.

(** A host whose exports object is empty. *)
Definition fresh_host {G : Type} (g : G) : world :=
  World {[ module_exports := Object ∅ true ]} 0 g.

(** A host whose exports object already holds an entry, next to a second
    object. *)
Definition used_host {G : Type} (g : G) : world :=
  World {[ module_exports :=
             Object {[ "version" := Data (JSString "0.1.0") true ]} true;
           other_object :=
             Object {[ "name" := Data (JSString "other") true ]} true ]} 0 g.

(** A host whose exports object has a read-only "name", as a function
    has. *)
Definition named_host {G : Type} (g : G) : world :=
  World {[ module_exports :=
             Object {[ "name" := Data (JSString "other") false ]} true ]} 0 g.

(** A host whose exports object guards "name" with a setter. *)
Definition guarded_host {G : Type} (g : G) : world :=
  World {[ module_exports :=
             Object {[ "name" := Accessor (Some 0%nat) ]} true ]} 0 g.

(** A host whose exports object has a writable "name" and a read-only
    "language". *)
Definition pinned_host {G : Type} (g : G) : world :=
  World {[ module_exports :=
             Object {[ "name" := Data (JSString "old") true;
                       "language" := Data JSNull false ]} true ]} 0 g.

(** A host whose exports object guards "language" with a setter. *)
Definition guarded_language_host {G : Type} (g : G) : world :=
  World {[ module_exports :=
             Object {[ "language" := Accessor (Some 0%nat) ]} true ]} 0 g.

(** A host whose exports object is frozen. *)
Definition frozen_host {G : Type} (g : G) : world :=
  World {[ module_exports :=
             Object {[ "version" := Data (JSString "0.1.0") false ]} false ]}
    0 g.

(** ** Heaps up to the identity of externals

    Two runs create different externals; what they leave is compared with
    the identity of every external forgotten. *)

Definition anonymous_value (v : value) : value :=
  match v with
  | JSExternal _ data => JSExternal 0 data
  | _ => v
  end.

Definition anonymous_property (p : property) : property :=
  match p with
  | Data v writable => Data (anonymous_value v) writable
  | Accessor setter => Accessor setter
  end.

Definition anonymous_object (obj : object) : object :=
  Object (anonymous_property <$> props obj) (extensible obj).

Definition anonymous (h : gmap address object) : gmap address object :=
  anonymous_object <$> h.

(** ** Reading a trace *)

Definition is_call (e : event) : bool :=
  match e with
  | EvCall _ => true
  | EvSet _ _ _ => false
  end.

(** Has the entry point returned within [t]? *)
Definition returned {G : Type} (t : @trace G) : bool :=
  existsb (λ step, is_call step.1) t.

(** Case analysis on membership in the three-step trace of a run. *)
Ltac in_run H :=
  rewrite !elem_of_cons, elem_of_nil in H;
  destruct H as [H | [H | [H | []]]]; simplify_eq.

(** * Properties of [Init] *)

(** ** Stores that run no setter *)

Lemma can_store_no_setter obj key :
  can_store obj key = true → no_setter obj key = true.
Proof.
  unfold can_store, no_setter.
  by destruct (props obj !! key) as [[v writable | [setter |]] |].
Qed.

Lemma props_put_eq obj key v :
  can_store obj key = true → props (put obj key v) !! key = Some (Data v true).
Proof. intros Hcan. unfold put. rewrite Hcan. apply lookup_insert_eq. Qed.

Lemma props_put_ne obj key key' v :
  key ≠ key' → props (put obj key v) !! key' = props obj !! key'.
Proof.
  intros Hne. unfold put.
  destruct (can_store obj key); [by apply lookup_insert_ne | done].
Qed.

Lemma extensible_put obj key v : extensible (put obj key v) = extensible obj.
Proof. unfold put. by destruct (can_store obj key). Qed.

Lemma can_store_put_ne obj key key' v :
  key ≠ key' → can_store (put obj key v) key' = can_store obj key'.
Proof.
  intros Hne. unfold can_store.
  by rewrite props_put_ne, extensible_put.
Qed.

Lemma no_setter_put_ne obj key key' v :
  key ≠ key' → no_setter (put obj key v) key' = no_setter obj key'.
Proof. intros Hne. unfold no_setter. by rewrite props_put_ne. Qed.

Lemma can_store_put_eq obj key v :
  can_store obj key = true → can_store (put obj key v) key = true.
Proof. intros Hcan. unfold can_store at 1. by rewrite props_put_eq. Qed.

Lemma dom_put obj key v :
  can_store obj key = true →
  dom (props (put obj key v)) = {[ key ]} ∪ dom (props obj).
Proof. intros Hcan. unfold put. rewrite Hcan. apply dom_insert_L. Qed.

(** Storing the same value twice is storing it once. *)
Lemma put_put obj key v v' : put (put obj key v) key v' = put obj key v'.
Proof.
  unfold put at 2 3. destruct (can_store obj key) eqn:Hcan.
  - unfold put. unfold can_store; simpl. rewrite lookup_insert_eq; simpl.
    by rewrite insert_insert_eq.
  - unfold put. by rewrite Hcan.
Qed.

(** Stores under different keys can be swapped. *)
Lemma put_swap obj key key' v v' :
  key ≠ key' →
  put (put obj key v) key' v' = put (put obj key' v') key v.
Proof.
  intros Hne. unfold put at 1 3.
  rewrite !can_store_put_ne by done.
  unfold put.
  destruct (can_store obj key), (can_store obj key'); simpl; try done.
  by rewrite insert_insert_ne.
Qed.

(** Forgetting identities goes through a store. *)
Lemma can_store_anonymous obj key :
  can_store (anonymous_object obj) key = can_store obj key.
Proof.
  unfold can_store; simpl. rewrite lookup_fmap.
  by destruct (props obj !! key) as [[v writable | setter] |].
Qed.

Lemma anonymous_put obj key v :
  anonymous_object (put obj key v) =
    put (anonymous_object obj) key (anonymous_value v).
Proof.
  unfold put. rewrite can_store_anonymous.
  destruct (can_store obj key); [| done].
  unfold anonymous_object; simpl. by rewrite fmap_insert.
Qed.

(** What the two stores of [Init] leave in an object. *)
Lemma populated_name obj (named language : value) :
  can_store obj "name" = true →
  props (put (put obj "name" named) "language" language) !! "name" =
    Some (Data named true).
Proof. intros Hcan. rewrite props_put_ne by done. by apply props_put_eq. Qed.

Lemma populated_language obj (named language : value) :
  can_store obj "language" = true →
  props (put (put obj "name" named) "language" language) !! "language" =
    Some (Data language true).
Proof.
  intros Hcan. apply props_put_eq. by rewrite can_store_put_ne.
Qed.

Lemma populated_other obj (named language : value) key :
  key ≠ "name" → key ≠ "language" →
  props (put (put obj "name" named) "language" language) !! key =
    props obj !! key.
Proof. intros Hname Hlanguage. by rewrite !props_put_ne. Qed.

Section Properties.

Context {G : Type}.
Variable tree_sitter_coral : G → TSLanguage_ptr * G.
Variable run_setter :
  nat → value → value → gmap address object →
  option value * gmap address object.

Abbreviation Init := (Init tree_sitter_coral run_setter).

Implicit Types (env : Napi_Env) (o : address) (w : @world G)
  (h : gmap address object) (g : G) (obj : object) (t : @trace G).

(** *** Reading back what was stored *)

Lemma own_property_insert h n g o obj key :
  own_property (World (<[o := obj]> h) n g) o key = props obj !! key.
Proof. unfold own_property; simpl. by rewrite lookup_insert_eq. Qed.

Lemma Object_Get_insert h n g o obj key :
  Object_Get (World (<[o := obj]> h) n g) (JSObject o) key =
    match props obj !! key with
    | Some (Data v _) => Some v
    | _ => None
    end.
Proof. unfold Object_Get. by rewrite own_property_insert. Qed.

Lemma Object_Keys_insert h n g o obj :
  Object_Keys (World (<[o := obj]> h) n g) (JSObject o) = dom (props obj).
Proof. unfold Object_Keys; simpl. by rewrite lookup_insert_eq. Qed.

Lemma writable_inv w o key :
  writable w o key = true →
  ∃ obj, heap w !! o = Some obj ∧ can_store obj key = true.
Proof. unfold writable. destruct (heap w !! o); [by eauto | done]. Qed.

Lemma settles_inv w o key :
  settles w o key = true →
  ∃ obj, heap w !! o = Some obj ∧ no_setter obj key = true.
Proof. unfold settles. destruct (heap w !! o); [by eauto | done]. Qed.

Lemma writable_at w o obj key :
  heap w !! o = Some obj → writable w o key = can_store obj key.
Proof. intros Hlive. unfold writable. by rewrite Hlive. Qed.

Lemma settles_at w o obj key :
  heap w !! o = Some obj → settles w o key = no_setter obj key.
Proof. intros Hlive. unfold settles. by rewrite Hlive. Qed.

(** *** One store *)

Lemma Object_Set_settled o key v w obj :
  heap w !! o = Some obj →
  no_setter obj key = true →
  Object_Set run_setter (JSObject o) key v w =
    Returns tt
      (World (<[o := put obj key v]> (heap w)) (externals w) (grammar w))
      [(EvSet (JSObject o) key v,
        World (<[o := put obj key v]> (heap w)) (externals w) (grammar w))].
Proof.
  intros Hlive Hquiet. unfold Object_Set. rewrite Hlive.
  unfold no_setter in Hquiet.
  by destruct (props obj !! key) as [[? ? | [setter |]] |].
Qed.

(** *** One run, effect by effect

    On an object whose "name" and "language" have no setter, [Init]
    performs three effects and returns the value it was given. *)

Lemma Init_run env o w obj :
  heap w !! o = Some obj →
  no_setter obj "name" = true →
  no_setter obj "language" = true →
  let handle := (tree_sitter_coral (grammar w)).1 in
  let g' := (tree_sitter_coral (grammar w)).2 in
  let language := JSExternal (externals w) handle in
  let named := put obj "name" (JSString "coral") in
  let h1 := <[o := named]> (heap w) in
  let h3 := <[o := put named "language" language]> h1 in
  Init env (JSObject o) w =
    Returns (JSObject o) (World h3 (S (externals w)) g')
      [ (EvSet (JSObject o) "name" (JSString "coral"),
         World h1 (externals w) (grammar w));
        (EvCall handle, World h1 (externals w) g');
        (EvSet (JSObject o) "language" language,
         World h3 (S (externals w)) g') ].
Proof.
  intros Hlive Hname Hlanguage. unfold Init.
  unfold mbind, M_bind, mret, M_ret.
  rewrite (Object_Set_settled _ _ _ _ _ Hlive Hname).
  unfold call_tree_sitter_coral, Napi_External_New, Napi_String_New.
  cbn [heap externals grammar].
  destruct (tree_sitter_coral (grammar w)) as [handle g'].
  cbn [heap externals grammar fst snd].
  erewrite Object_Set_settled;
    [reflexivity | apply lookup_insert_eq | by rewrite no_setter_put_ne].
Qed.

(** *** The claims *)

(** Unpack the two hypotheses on the container and run [Init]. *)
Ltac run env o w Hname Hlanguage obj Hlive :=
  first [ apply writable_inv in Hname as (obj & Hlive & Hname)
        | apply settles_inv in Hname as (obj & Hlive & Hname) ];
  first [ rewrite (writable_at _ _ _ _ Hlive) in Hlanguage
        | rewrite (settles_at _ _ _ _ Hlive) in Hlanguage ];
  rewrite (Init_run env o w obj Hlive)
    by first [ assumption | by apply can_store_no_setter ].

(** **** C1, as amended.  For every exports container on which a store
    under "name" takes effect and a store under "language" runs no setter,
    [Init] returns and the container then maps "name" to the string
    "coral", whatever value it held there before and whatever the state of
    the grammar library. *)
Theorem Init_name_is_coral env o w :
  writable w o "name" = true →
  settles w o "language" = true →
  ∃ w' t,
    Init env (JSObject o) w = Returns (JSObject o) w' t ∧
    Object_Get w' (JSObject o) "name" = Some (JSString "coral").
Proof.
  intros Hname Hlanguage. run env o w Hname Hlanguage obj Hlive.
  eexists _, _. split; [reflexivity |].
  rewrite Object_Get_insert, props_put_ne by done.
  by rewrite props_put_eq.
Qed.

(** **** C2.  Handle pass-through: the value stored under "language" is a
    new external that wraps exactly the handle the entry point
    [tree_sitter_coral] returned, with no transformation; in particular it
    is non-null whenever that handle is. *)
Theorem Init_language_is_handle env o w :
  writable w o "name" = true →
  writable w o "language" = true →
  ∃ w' t v,
    Init env (JSObject o) w = Returns (JSObject o) w' t ∧
    Object_Get w' (JSObject o) "language" = Some v ∧
    v = JSExternal (externals w) (tree_sitter_coral (grammar w)).1 ∧
    External_Data v = Some (tree_sitter_coral (grammar w)).1 ∧
    ((tree_sitter_coral (grammar w)).1 ≠ nullptr →
     External_Data v ≠ Some nullptr).
Proof.
  intros Hname Hlanguage. run env o w Hname Hlanguage obj Hlive.
  eexists _, _, _. split; [reflexivity |].
  rewrite Object_Get_insert, populated_language by done.
  repeat split. simpl. congruence.
Qed.

(** **** C3, as amended.  After [Init] returns, the keys of the exports
    container are "name" and "language" together with the keys it held
    before the call; they are exactly "name" and "language" when it held
    no other key on entry. *)
Theorem Init_keys env o w :
  writable w o "name" = true →
  writable w o "language" = true →
  ∃ w' t,
    Init env (JSObject o) w = Returns (JSObject o) w' t ∧
    Object_Keys w' (JSObject o) =
      {[ "name"; "language" ]} ∪ Object_Keys w (JSObject o) ∧
    (Object_Keys w (JSObject o) ⊆ {[ "name"; "language" ]} →
     Object_Keys w' (JSObject o) = {[ "name"; "language" ]}).
Proof.
  intros Hname Hlanguage. run env o w Hname Hlanguage obj Hlive.
  eexists _, _. split; [reflexivity |].
  rewrite Object_Keys_insert.
  rewrite dom_put by (by rewrite can_store_put_ne).
  rewrite dom_put by done.
  unfold Object_Keys. rewrite Hlive.
  split; [set_solver | set_solver].
Qed.

(** **** C4.  [Init] returns the very container it was given: the value it
    returns is the reference it received, the heap holds the same objects
    as before, so the container is no copy, and the object behind the
    reference now holds the two entries. *)
Theorem Init_returns_exports env o w :
  writable w o "name" = true →
  writable w o "language" = true →
  ∃ w' t,
    Init env (JSObject o) w = Returns (JSObject o) w' t ∧
    (∀ r w'' t', Init env (JSObject o) w = Returns r w'' t' → r = JSObject o) ∧
    dom (heap w') = dom (heap w) ∧
    Object_Get w' (JSObject o) "name" = Some (JSString "coral") ∧
    Object_Get w' (JSObject o) "language" =
      Some (JSExternal (externals w) (tree_sitter_coral (grammar w)).1).
Proof.
  intros Hname Hlanguage. run env o w Hname Hlanguage obj Hlive.
  eexists _, _. split; [reflexivity |].
  split; [intros r w'' t' [= <- _ _]; reflexivity |].
  split.
  - simpl. rewrite !dom_insert_L.
    apply (elem_of_dom_2 (heap w)) in Hlive. set_solver.
  - by rewrite !Object_Get_insert, populated_name, populated_language.
Qed.

(** **** C5.  Frame: a call of [Init] changes the exports container and the
    static state of the grammar library, and nothing else.  Every effect
    that is a store is a store on the exports container; every other object
    of the heap is, at each point of the run and at its end, what it was
    before; the state of the library is the one the entry point left.  The
    one thing [Init] creates is the external it stores. *)
Theorem Init_frame env o w :
  writable w o "name" = true →
  writable w o "language" = true →
  ∃ w' t,
    Init env (JSObject o) w = Returns (JSObject o) w' t ∧
    (∀ o', o' ≠ o → heap w' !! o' = heap w !! o') ∧
    grammar w' = (tree_sitter_coral (grammar w)).2 ∧
    externals w' = S (externals w) ∧
    (∀ target key v wi, (EvSet target key v, wi) ∈ t → target = JSObject o) ∧
    (∀ e wi o', (e, wi) ∈ t → o' ≠ o → heap wi !! o' = heap w !! o').
Proof.
  intros Hname Hlanguage. run env o w Hname Hlanguage obj Hlive.
  eexists _, _. split; [reflexivity |].
  split; [| split; [reflexivity | split; [reflexivity | split]]].
  - intros o' Hne. simpl. by rewrite !lookup_insert_ne.
  - intros target key v wi Hin. by in_run Hin.
  - intros e wi o' Hin Hne.
    in_run Hin; simpl; by rewrite ?lookup_insert_ne.
Qed.

(** **** C6, as amended.  The "language" entry is never published before
    the entry point has returned, and the value published wraps exactly the
    handle returned, so it is non-null whenever the entry point returned
    non-null.  The "name" entry is the first effect of [Init]: it is
    published before the entry point is called. *)
Theorem Init_language_after_return env o w :
  writable w o "name" = true →
  writable w o "language" = true →
  ∃ w' t,
    Init env (JSObject o) w = Returns (JSObject o) w' t ∧
    (∀ before target v wi after,
       t = before ++ (EvSet target "language" v, wi) :: after →
       returned before = true ∧
       v = JSExternal (externals w) (tree_sitter_coral (grammar w)).1 ∧
       ((tree_sitter_coral (grammar w)).1 ≠ nullptr →
        External_Data v ≠ Some nullptr)) ∧
    (∃ w1 after,
       t = (EvSet (JSObject o) "name" (JSString "coral"), w1) :: after).
Proof.
  intros Hname Hlanguage. run env o w Hname Hlanguage obj Hlive.
  eexists _, _. split; [reflexivity |]. split; [| by eauto].
  intros before target v wi after Hsplit.
  destruct before as [| s1 [| s2 [| s3 before]]]; simplify_eq/=.
  - repeat split. congruence.
  - by destruct before.
Qed.

(** **** C7.  Idempotence: when every later call of the entry point returns
    the handle of the first call or one that refers to an equivalent
    automaton, any two invocations of [Init] in one process, on whatever
    containers and with any number of calls of the entry point in between,
    leave the same "name", namely "coral", and "language" handles that are
    identical or refer to equivalent automatons. *)
Theorem Init_idempotent (equivalent : TSLanguage_ptr → TSLanguage_ptr → Prop)
    env1 o1 w1 :
  (∀ g n, let later := (tree_sitter_coral (calls tree_sitter_coral (S n) g)).1 in
          later = (tree_sitter_coral g).1 ∨
          equivalent later (tree_sitter_coral g).1) →
  writable w1 o1 "name" = true →
  writable w1 o1 "language" = true →
  ∃ w1' t1,
    Init env1 (JSObject o1) w1 = Returns (JSObject o1) w1' t1 ∧
    ∀ n env2 o2 w2,
      grammar w2 = calls tree_sitter_coral n (grammar w1') →
      writable w2 o2 "name" = true →
      writable w2 o2 "language" = true →
      ∃ w2' t2 id1 id2 handle1 handle2,
        Init env2 (JSObject o2) w2 = Returns (JSObject o2) w2' t2 ∧
        Object_Get w1' (JSObject o1) "name" = Some (JSString "coral") ∧
        Object_Get w2' (JSObject o2) "name" = Some (JSString "coral") ∧
        Object_Get w1' (JSObject o1) "language" =
          Some (JSExternal id1 handle1) ∧
        Object_Get w2' (JSObject o2) "language" =
          Some (JSExternal id2 handle2) ∧
        (handle2 = handle1 ∨ equivalent handle2 handle1).
Proof.
  intros Hcached Hname1 Hlanguage1.
  run env1 o1 w1 Hname1 Hlanguage1 obj1 Hlive1.
  eexists _, _. split; [reflexivity |].
  intros n env2 o2 w2 Hgrammar Hname2 Hlanguage2.
  run env2 o2 w2 Hname2 Hlanguage2 obj2 Hlive2.
  simpl in Hgrammar. rewrite Hgrammar.
  eexists _, _, _, _, (tree_sitter_coral (grammar w1)).1, _.
  split; [reflexivity |].
  rewrite !Object_Get_insert, !populated_name, !populated_language by done.
  repeat (split; [reflexivity |]). apply (Hcached (grammar w1) n).
Qed.

(** **** C8, as amended.  [Init] checks nothing about the handle: on a
    container on which a store under "name" runs no setter and a store
    under "language" takes effect, for every entry point and every value it
    returns, the null pointer included, [Init] returns and has stored that
    value under "language" unchanged. *)
Theorem Init_no_null_check env o w :
  settles w o "name" = true →
  writable w o "language" = true →
  ∃ w' t,
    Init env (JSObject o) w = Returns (JSObject o) w' t ∧
    Object_Get w' (JSObject o) "language" =
      Some (JSExternal (externals w) (tree_sitter_coral (grammar w)).1) ∧
    ((tree_sitter_coral (grammar w)).1 = nullptr →
     Object_Get w' (JSObject o) "language" =
       Some (JSExternal (externals w) nullptr)).
Proof.
  intros Hname Hlanguage. run env o w Hname Hlanguage obj Hlive.
  eexists _, _. split; [reflexivity |].
  rewrite Object_Get_insert, populated_language by done.
  split; [reflexivity | by intros ->].
Qed.

(** **** C9.  Step order: [Init] stores "name", then calls the entry point,
    then stores "language".  Until the last of these the "language" entry
    is what it was before the call of [Init], while "name" holds "coral"
    from the first effect on; so at no step is "language" present in the
    container and "name" absent. *)
Theorem Init_step_order env o w :
  writable w o "name" = true →
  writable w o "language" = true →
  ∃ w1 w2 w3,
    Init env (JSObject o) w =
      Returns (JSObject o) w3
        [ (EvSet (JSObject o) "name" (JSString "coral"), w1);
          (EvCall (tree_sitter_coral (grammar w)).1, w2);
          (EvSet (JSObject o) "language"
             (JSExternal (externals w) (tree_sitter_coral (grammar w)).1),
           w3) ] ∧
    Object_Get w1 (JSObject o) "language" =
      Object_Get w (JSObject o) "language" ∧
    Object_Get w2 (JSObject o) "language" =
      Object_Get w (JSObject o) "language" ∧
    grammar w1 = grammar w ∧
    (∀ wi, wi ∈ [w1; w2; w3] →
       Object_Get wi (JSObject o) "name" = Some (JSString "coral") ∧
       ¬ (is_Some (Object_Get wi (JSObject o) "language") ∧
          Object_Get wi (JSObject o) "name" = None)).
Proof.
  intros Hname Hlanguage. run env o w Hname Hlanguage obj Hlive.
  eexists _, _, _. split; [reflexivity |].
  assert (Hprior : Object_Get w (JSObject o) "language" =
                     match props obj !! "language" with
                     | Some (Data v _) => Some v
                     | _ => None
                     end)
    by (unfold Object_Get, own_property; by rewrite Hlive).
  rewrite !Object_Get_insert, Hprior, props_put_ne by done.
  do 3 (split; [reflexivity |]).
  intros wi Hin.
  assert (Hcoral : Object_Get wi (JSObject o) "name" = Some (JSString "coral")).
  { in_run Hin; rewrite Object_Get_insert;
      [by rewrite props_put_eq .. | by rewrite populated_name]. }
  split; [exact Hcoral |]. intros [_ Habsent]. congruence.
Qed.

(** **** C10, as amended.  Noninterference on writable entries: from the
    same state of the grammar library, any two containers on which stores
    under "name" and "language" take effect, whatever they held under any
    key, end with the same string under "name" and with externals that wrap
    the same handle under "language", and the library ends in the same
    state.  What such a container held under the two keys is overwritten and
    has no influence on the result. *)
Theorem Init_noninterference env1 env2 o1 o2 h1 h2 n1 n2 g :
  writable (World h1 n1 g) o1 "name" = true →
  writable (World h1 n1 g) o1 "language" = true →
  writable (World h2 n2 g) o2 "name" = true →
  writable (World h2 n2 g) o2 "language" = true →
  ∃ w1' t1 w2' t2 id1 id2 handle,
    Init env1 (JSObject o1) (World h1 n1 g) = Returns (JSObject o1) w1' t1 ∧
    Init env2 (JSObject o2) (World h2 n2 g) = Returns (JSObject o2) w2' t2 ∧
    Object_Get w1' (JSObject o1) "name" = Some (JSString "coral") ∧
    Object_Get w2' (JSObject o2) "name" = Some (JSString "coral") ∧
    Object_Get w1' (JSObject o1) "language" = Some (JSExternal id1 handle) ∧
    Object_Get w2' (JSObject o2) "language" = Some (JSExternal id2 handle) ∧
    grammar w1' = grammar w2'.
Proof.
  intros Hname1 Hlanguage1 Hname2 Hlanguage2.
  run env1 o1 (World h1 n1 g) Hname1 Hlanguage1 obj1 Hlive1.
  run env2 o2 (World h2 n2 g) Hname2 Hlanguage2 obj2 Hlive2.
  eexists _, _, _, _, _, _, _. do 2 (split; [reflexivity |]).
  by rewrite !Object_Get_insert, !populated_name, !populated_language.
Qed.


(** *** More on [Init]: what it leaves alone and how calls compose *)

(** **** X1.  [Init] stores under "name" and "language" and under no other
    key: every other entry of the exports container, present or absent, is
    at each step of the run and at its end what it was before. *)
Theorem Init_keeps_other_entries env o w key :
  writable w o "name" = true →
  writable w o "language" = true →
  key ≠ "name" →
  key ≠ "language" →
  ∃ w' t,
    Init env (JSObject o) w = Returns (JSObject o) w' t ∧
    own_property w' o key = own_property w o key ∧
    Object_Get w' (JSObject o) key = Object_Get w (JSObject o) key ∧
    (∀ e wi, (e, wi) ∈ t →
       own_property wi o key = own_property w o key ∧
       Object_Get wi (JSObject o) key = Object_Get w (JSObject o) key).
Proof.
  intros Hname Hlanguage Hkey_name Hkey_language.
  run env o w Hname Hlanguage obj Hlive.
  eexists _, _. split; [reflexivity |].
  assert (Hprior : own_property w o key = props obj !! key)
    by (unfold own_property; by rewrite Hlive).
  unfold Object_Get. rewrite Hprior, own_property_insert.
  rewrite populated_other by done. do 2 (split; [reflexivity |]).
  intros e wi Hin.
  in_run Hin; rewrite own_property_insert, ?populated_other,
    ?props_put_ne by done; done.
Qed.

(** **** X2.  [Init] keeps no record of an earlier run and looks at nothing
    in the container: run again on the container it has just populated, it
    calls the entry point a second time and stores a new external.  When
    that call returns the handle of the first, the new external wraps the
    same handle as the one it replaces, and nothing else changes: every
    other entry of every object, and the keys of the container, are as the
    first run left them. *)
Theorem Init_again env1 env2 o w :
  writable w o "name" = true →
  writable w o "language" = true →
  (tree_sitter_coral (tree_sitter_coral (grammar w)).2).1 =
    (tree_sitter_coral (grammar w)).1 →
  ∃ w1 t1 w2 t2 id1 id2 handle,
    Init env1 (JSObject o) w = Returns (JSObject o) w1 t1 ∧
    Init env2 (JSObject o) w1 = Returns (JSObject o) w2 t2 ∧
    Object_Get w1 (JSObject o) "language" = Some (JSExternal id1 handle) ∧
    Object_Get w2 (JSObject o) "language" = Some (JSExternal id2 handle) ∧
    id1 ≠ id2 ∧
    (∀ o' key, o' ≠ o ∨ key ≠ "language" →
       own_property w2 o' key = own_property w1 o' key) ∧
    Object_Keys w2 (JSObject o) = Object_Keys w1 (JSObject o) ∧
    anonymous (heap w2) = anonymous (heap w1) ∧
    grammar w2 = calls tree_sitter_coral 2 (grammar w).
Proof.
  intros Hname Hlanguage Hsame. run env1 o w Hname Hlanguage obj Hlive.
  eexists _, _, _, _, _, _, _. split; [reflexivity |].
  rewrite (Init_run env2 o (World _ _ _) _ (lookup_insert_eq _ _ _)).
  2: { apply can_store_no_setter. rewrite can_store_put_ne by done.
       by apply can_store_put_eq. }
  2: { apply can_store_no_setter. apply can_store_put_eq.
       by rewrite can_store_put_ne. }
  cbn [heap externals grammar]. rewrite Hsame.
  split; [reflexivity |].
  rewrite !insert_insert_eq.
  rewrite (put_swap _ "language" "name") by done.
  rewrite !put_put.
  rewrite !Object_Get_insert, !Object_Keys_insert.
  rewrite !props_put_eq by (by rewrite can_store_put_ne).
  do 2 (split; [reflexivity |]). split; [lia |].
  split; [| split; [| split; [| reflexivity]]].
  - intros o' key [Hne | Hne]; unfold own_property; simpl.
    + by rewrite !lookup_insert_ne.
    + destruct (decide (o' = o)) as [-> | Hother];
        [| by rewrite !lookup_insert_ne].
      rewrite !lookup_insert_eq; simpl.
      by rewrite !(props_put_ne _ "language" key) by congruence.
  - assert (Hcan : can_store (put obj "name" (JSString "coral")) "language"
                     = true) by (by rewrite can_store_put_ne).
    by rewrite !(dom_put _ "language" _ Hcan).
  - unfold anonymous. cbn [heap].
    by rewrite !fmap_insert, !anonymous_put.
Qed.

(** **** X3.  Runs of [Init] on two different containers commute up to the
    identity of the externals they create: when the second call of the
    entry point returns the handle of the first, the two orders end with
    the same heap once identities are forgotten, with as many externals
    created, and with the same state of the library. *)
Theorem Init_commutes env1 env2 o1 o2 w :
  o1 ≠ o2 →
  writable w o1 "name" = true →
  writable w o1 "language" = true →
  writable w o2 "name" = true →
  writable w o2 "language" = true →
  (tree_sitter_coral (tree_sitter_coral (grammar w)).2).1 =
    (tree_sitter_coral (grammar w)).1 →
  ∃ wa ta wb tb wab tab wba tba,
    Init env1 (JSObject o1) w = Returns (JSObject o1) wa ta ∧
    Init env2 (JSObject o2) wa = Returns (JSObject o2) wab tab ∧
    Init env2 (JSObject o2) w = Returns (JSObject o2) wb tb ∧
    Init env1 (JSObject o1) wb = Returns (JSObject o1) wba tba ∧
    anonymous (heap wab) = anonymous (heap wba) ∧
    externals wab = externals wba ∧
    grammar wab = grammar wba.
Proof.
  intros Hne Hname1 Hlanguage1 Hname2 Hlanguage2 Hsame.
  apply writable_inv in Hname1 as (obj1 & Hlive1 & Hname1).
  apply writable_inv in Hname2 as (obj2 & Hlive2 & Hname2).
  rewrite (writable_at _ _ _ _ Hlive1) in Hlanguage1.
  rewrite (writable_at _ _ _ _ Hlive2) in Hlanguage2.
  rewrite (Init_run env1 o1 w obj1 Hlive1) by (by apply can_store_no_setter).
  rewrite (Init_run env2 o2 w obj2 Hlive2) by (by apply can_store_no_setter).
  eexists _, _, _, _, _, _, _, _. split; [reflexivity |].
  rewrite (Init_run env2 o2 (World _ _ _) obj2)
    by first [ by cbn [heap]; rewrite !lookup_insert_ne
             | by apply can_store_no_setter ].
  split; [reflexivity |]. split; [reflexivity |].
  rewrite (Init_run env1 o1 (World _ _ _) obj1)
    by first [ by cbn [heap]; rewrite !lookup_insert_ne
             | by apply can_store_no_setter ].
  split; [reflexivity |].
  cbn [heap externals grammar]. rewrite Hsame.
  split; [| split; reflexivity].
  unfold anonymous. rewrite !insert_insert_eq, !fmap_insert, !anonymous_put.
  by rewrite (insert_insert_ne _ o1 o2) by done.
Qed.

(** *** When a store is refused or raises *)

(** **** X4.  When the container guards "name" with a setter that throws,
    [Init] raises what the setter threw at its first store: the entry point
    is not called, no external is created, and the heap is what the setter
    left. *)
Theorem Init_raises_at_name env o w obj setter e h' :
  heap w !! o = Some obj →
  props obj !! "name" = Some (Accessor (Some setter)) →
  run_setter setter (JSObject o) (JSString "coral") (heap w) = (Some e, h') →
  ∃ w',
    Init env (JSObject o) w =
      Raises (Thrown e) w'
        [(EvSet (JSObject o) "name" (JSString "coral"), w')] ∧
    heap w' = h' ∧
    grammar w' = grammar w ∧
    externals w' = externals w.
Proof.
  intros Hlive Hguard Hthrows. unfold Init.
  unfold mbind, M_bind, Object_Set, Napi_String_New.
  rewrite Hlive, Hguard, Hthrows. by eexists.
Qed.

(** **** X5.  [Init] does not undo what it has done: when the store under
    "name" takes effect and the container guards "language" with a setter
    that throws, [Init] raises what the setter threw after it has stored
    the name, called the entry point once and created the external.  The
    name is in the container from the first step until the setter runs. *)
Theorem Init_raises_at_language env o w obj setter e h' :
  heap w !! o = Some obj →
  can_store obj "name" = true →
  props obj !! "language" = Some (Accessor (Some setter)) →
  run_setter setter (JSObject o)
    (JSExternal (externals w) (tree_sitter_coral (grammar w)).1)
    (<[o := put obj "name" (JSString "coral")]> (heap w)) = (Some e, h') →
  ∃ w1 w2 w',
    Init env (JSObject o) w =
      Raises (Thrown e) w'
        [ (EvSet (JSObject o) "name" (JSString "coral"), w1);
          (EvCall (tree_sitter_coral (grammar w)).1, w2);
          (EvSet (JSObject o) "language"
             (JSExternal (externals w) (tree_sitter_coral (grammar w)).1),
           w') ] ∧
    Object_Get w1 (JSObject o) "name" = Some (JSString "coral") ∧
    Object_Get w2 (JSObject o) "name" = Some (JSString "coral") ∧
    heap w' = h' ∧
    grammar w' = (tree_sitter_coral (grammar w)).2 ∧
    externals w' = S (externals w).
Proof.
  intros Hlive Hname Hguard Hthrows. unfold Init.
  unfold mbind, M_bind.
  rewrite (Object_Set_settled _ _ _ _ _ Hlive (can_store_no_setter _ _ Hname)).
  unfold call_tree_sitter_coral, Napi_External_New, Napi_String_New.
  cbn [heap externals grammar].
  destruct (tree_sitter_coral (grammar w)) as [handle g'].
  cbn [heap externals grammar fst snd] in *.
  unfold Object_Set. cbn [heap externals grammar].
  rewrite lookup_insert_eq, props_put_ne, Hguard, Hthrows by done.
  eexists _, _, _. split; [reflexivity |].
  by rewrite !Object_Get_insert, props_put_eq.
Qed.

(** **** X6.  On a container that takes neither store and has no setter
    for them, as a frozen object, [Init] returns the container without an
    error and with its heap unchanged; it has still called the entry point
    once and created an external, which nothing refers to. *)
Theorem Init_on_frozen env o w obj :
  heap w !! o = Some obj →
  can_store obj "name" = false →
  can_store obj "language" = false →
  no_setter obj "name" = true →
  no_setter obj "language" = true →
  ∃ w' t,
    Init env (JSObject o) w = Returns (JSObject o) w' t ∧
    heap w' = heap w ∧
    grammar w' = (tree_sitter_coral (grammar w)).2 ∧
    externals w' = S (externals w) ∧
    returned t = true.
Proof.
  intros Hlive Hname Hlanguage Hquiet_name Hquiet_language.
  rewrite (Init_run env o w obj Hlive Hquiet_name Hquiet_language).
  eexists _, _. split; [reflexivity |].
  cbn [heap externals grammar].
  unfold put. rewrite Hname, Hlanguage.
  split; [| by repeat split].
  by rewrite insert_insert_eq, insert_id.
Qed.

End Properties.

(** * The properties at work on concrete hosts *)

(** C1 as the spec states it fails on a container whose "name" is
    read-only, as that of a function is: the store is ignored without an
    error and the entry keeps its value. *)
Lemma Init_leaves_read_only_name :
  ∃ w' t,
    Init (static_grammar 4096) refusing_setter main_env
      (JSObject module_exports) (named_host ()) =
      Returns (JSObject module_exports) w' t ∧
    Object_Get w' (JSObject module_exports) "name" = Some (JSString "other") ∧
    Object_Get w' (JSObject module_exports) "name" ≠ Some (JSString "coral") ∧
    Object_Get w' (JSObject module_exports) "language" =
      Some (JSExternal 0 4096).
Proof.
  eexists _, _. split; [vm_compute; reflexivity |].
  split; [reflexivity |]. split; [discriminate | reflexivity].
Qed.

(** A container that holds an old name and a read-only "language". *)
Lemma Init_name_is_coral_witness :
  writable (pinned_host ()) module_exports "name" = true ∧
  settles (pinned_host ()) module_exports "language" = true ∧
  ∃ w' t,
    Init (static_grammar 4096) refusing_setter main_env
      (JSObject module_exports) (pinned_host ()) =
      Returns (JSObject module_exports) w' t ∧
    Object_Get w' (JSObject module_exports) "name" = Some (JSString "coral").
Proof.
  do 2 (split; [reflexivity |]).
  apply (Init_name_is_coral (static_grammar 4096) refusing_setter);
    reflexivity.
Defined.

Lemma Init_language_is_handle_witness :
  writable (used_host ()) module_exports "name" = true ∧
  writable (used_host ()) module_exports "language" = true ∧
  ∃ w' t v,
    Init (static_grammar 4096) refusing_setter main_env
      (JSObject module_exports) (used_host ()) =
      Returns (JSObject module_exports) w' t ∧
    Object_Get w' (JSObject module_exports) "language" = Some v ∧
    v = JSExternal 0 4096 ∧
    External_Data v = Some 4096 ∧
    (4096 ≠ nullptr → External_Data v ≠ Some nullptr).
Proof.
  do 2 (split; [reflexivity |]).
  apply (Init_language_is_handle (static_grammar 4096) refusing_setter);
    reflexivity.
Defined.

(** C3 as the spec states it fails on a container that is not empty on
    entry: the key it held is still there after [Init]. *)
Lemma Init_keeps_prior_keys :
  ∃ w' t,
    Init (static_grammar 4096) refusing_setter main_env
      (JSObject module_exports) (used_host ()) =
      Returns (JSObject module_exports) w' t ∧
    "version" ∈ Object_Keys w' (JSObject module_exports) ∧
    Object_Keys w' (JSObject module_exports) ≠ {[ "name"; "language" ]}.
Proof.
  rewrite (Init_run (static_grammar 4096) refusing_setter main_env
             module_exports (used_host ())
             (Object {[ "version" := Data (JSString "0.1.0") true ]} true))
    by reflexivity.
  eexists _, _. split; [reflexivity |].
  rewrite Object_Keys_insert, !dom_put by reflexivity. simpl.
  rewrite dom_singleton_L.
  split; [set_solver |].
  intros Heq.
  assert (Hin : "version" ∈ ({[ "name"; "language" ]} : gset string))
    by (rewrite <- Heq; set_solver).
  set_solver.
Qed.

Lemma Init_keys_witness :
  writable (fresh_host ()) module_exports "name" = true ∧
  writable (fresh_host ()) module_exports "language" = true ∧
  ∃ w' t,
    Init (static_grammar 4096) refusing_setter main_env
      (JSObject module_exports) (fresh_host ()) =
      Returns (JSObject module_exports) w' t ∧
    Object_Keys w' (JSObject module_exports) =
      {[ "name"; "language" ]} ∪
        Object_Keys (fresh_host ()) (JSObject module_exports) ∧
    (Object_Keys (fresh_host ()) (JSObject module_exports) ⊆
       {[ "name"; "language" ]} →
     Object_Keys w' (JSObject module_exports) = {[ "name"; "language" ]}).
Proof.
  do 2 (split; [reflexivity |]).
  apply (Init_keys (static_grammar 4096) refusing_setter); reflexivity.
Defined.

Lemma Init_returns_exports_witness :
  writable (used_host ()) module_exports "name" = true ∧
  writable (used_host ()) module_exports "language" = true ∧
  ∃ w' t,
    Init (static_grammar 4096) refusing_setter main_env
      (JSObject module_exports) (used_host ()) =
      Returns (JSObject module_exports) w' t ∧
    (∀ r w'' t',
       Init (static_grammar 4096) refusing_setter main_env
         (JSObject module_exports) (used_host ()) = Returns r w'' t' →
       r = JSObject module_exports) ∧
    dom (heap w') = dom (heap (used_host ())) ∧
    Object_Get w' (JSObject module_exports) "name" = Some (JSString "coral") ∧
    Object_Get w' (JSObject module_exports) "language" =
      Some (JSExternal 0 4096).
Proof.
  do 2 (split; [reflexivity |]).
  apply (Init_returns_exports (static_grammar 4096) refusing_setter);
    reflexivity.
Defined.

(** The second object of the host is out of [Init]'s reach. *)
Lemma Init_frame_witness :
  writable (used_host not_built) module_exports "name" = true ∧
  writable (used_host not_built) module_exports "language" = true ∧
  ∃ w' t,
    Init (cached_grammar 4096) refusing_setter main_env
      (JSObject module_exports) (used_host not_built) =
      Returns (JSObject module_exports) w' t ∧
    (∀ o', o' ≠ module_exports →
       heap w' !! o' = heap (used_host not_built) !! o') ∧
    grammar w' = Some 4096 ∧
    externals w' = 1%nat ∧
    (∀ target key v wi,
       (EvSet target key v, wi) ∈ t → target = JSObject module_exports) ∧
    (∀ e wi o', (e, wi) ∈ t → o' ≠ module_exports →
       heap wi !! o' = heap (used_host not_built) !! o').
Proof.
  do 2 (split; [reflexivity |]).
  apply (Init_frame (cached_grammar 4096) refusing_setter); reflexivity.
Defined.

(** C6 as the spec states it fails twice on a fresh host whose grammar
    library returns the null pointer: the store of "name" comes at a step
    before which the entry point has not returned, and at the end of the run
    the container shows the name next to a null handle. *)
Lemma Init_publishes_name_before_return :
  ∃ w' before step after,
    Init (static_grammar nullptr) refusing_setter main_env
      (JSObject module_exports) (fresh_host ()) =
      Returns (JSObject module_exports) w' (before ++ step :: after) ∧
    step.1 = EvSet (JSObject module_exports) "name" (JSString "coral") ∧
    returned before = false ∧
    Object_Get w' (JSObject module_exports) "name" = Some (JSString "coral") ∧
    Object_Get w' (JSObject module_exports) "language" ≫= External_Data =
      Some nullptr.
Proof.
  rewrite (Init_run (static_grammar nullptr) refusing_setter main_env
             module_exports (fresh_host ()) (Object ∅ true)) by reflexivity.
  eexists _, [], _, _. split; [reflexivity |].
  do 2 (split; [reflexivity |]).
  by rewrite !Object_Get_insert, populated_name, populated_language.
Qed.

Lemma Init_language_after_return_witness :
  writable (fresh_host not_built) module_exports "name" = true ∧
  writable (fresh_host not_built) module_exports "language" = true ∧
  ∃ w' t,
    Init (cached_grammar 4096) refusing_setter main_env
      (JSObject module_exports) (fresh_host not_built) =
      Returns (JSObject module_exports) w' t ∧
    (∀ before target v wi after,
       t = before ++ (EvSet target "language" v, wi) :: after →
       returned before = true ∧
       v = JSExternal 0 4096 ∧
       (4096 ≠ nullptr → External_Data v ≠ Some nullptr)) ∧
    (∃ w1 after,
       t = (EvSet (JSObject module_exports) "name" (JSString "coral"), w1)
             :: after).
Proof.
  do 2 (split; [reflexivity |]).
  apply (Init_language_after_return (cached_grammar 4096) refusing_setter);
    reflexivity.
Defined.

(** Once built, the table of the caching library stays. *)
Lemma cached_grammar_calls addr n built :
  calls (cached_grammar addr) n (Some built) = Some built.
Proof. induction n as [| n IH]; [reflexivity | exact IH]. Qed.

Lemma cached_grammar_later addr g n :
  (cached_grammar addr (calls (cached_grammar addr) (S n) g)).1 =
    (cached_grammar addr g).1.
Proof. destruct g as [built |]; simpl; by rewrite cached_grammar_calls. Qed.

(** Two loads against the caching library, the second on any object of any
    later heap. *)
Lemma Init_idempotent_witness :
  (∀ g n,
     let later :=
       (cached_grammar 4096 (calls (cached_grammar 4096) (S n) g)).1 in
     later = (cached_grammar 4096 g).1 ∨ False) ∧
  writable (used_host not_built) module_exports "name" = true ∧
  writable (used_host not_built) module_exports "language" = true ∧
  ∃ w1' t1,
    Init (cached_grammar 4096) refusing_setter main_env
      (JSObject module_exports) (used_host not_built) =
      Returns (JSObject module_exports) w1' t1 ∧
    ∀ n env2 o2 w2,
      grammar w2 = calls (cached_grammar 4096) n (grammar w1') →
      writable w2 o2 "name" = true →
      writable w2 o2 "language" = true →
      ∃ w2' t2 id1 id2 handle1 handle2,
        Init (cached_grammar 4096) refusing_setter env2 (JSObject o2) w2 =
          Returns (JSObject o2) w2' t2 ∧
        Object_Get w1' (JSObject module_exports) "name" =
          Some (JSString "coral") ∧
        Object_Get w2' (JSObject o2) "name" = Some (JSString "coral") ∧
        Object_Get w1' (JSObject module_exports) "language" =
          Some (JSExternal id1 handle1) ∧
        Object_Get w2' (JSObject o2) "language" =
          Some (JSExternal id2 handle2) ∧
        (handle2 = handle1 ∨ False).
Proof.
  assert (Hcached : ∀ g n,
    let later :=
      (cached_grammar 4096 (calls (cached_grammar 4096) (S n) g)).1 in
    later = (cached_grammar 4096 g).1 ∨ False)
    by (intros g n; left; apply cached_grammar_later).
  split; [exact Hcached |]. do 2 (split; [reflexivity |]).
  apply (Init_idempotent (cached_grammar 4096) refusing_setter (λ _ _, False)
           main_env module_exports (used_host not_built) Hcached);
    reflexivity.
Defined.

(** C8 as the spec states it fails on a container that guards "name" with
    a setter that throws: [Init] raises what the setter threw, before it
    has called the entry point or stored anything. *)
Lemma Init_raises_what_setter_throws :
  ∃ w' t,
    Init (static_grammar 4096) refusing_setter main_env
      (JSObject module_exports) (guarded_host ()) =
      Raises (Thrown (JSString "denied")) w' t ∧
    returned t = false ∧
    heap w' = heap (guarded_host ()) ∧
    Object_Get w' (JSObject module_exports) "language" = None.
Proof.
  eexists _, _. split; [vm_compute; reflexivity |].
  split; [reflexivity |]. split; reflexivity.
Qed.

(** A container with a read-only "name" and a grammar library that returns
    the null pointer. *)
Lemma Init_no_null_check_witness :
  settles (named_host ()) module_exports "name" = true ∧
  writable (named_host ()) module_exports "language" = true ∧
  ∃ w' t,
    Init (static_grammar nullptr) refusing_setter main_env
      (JSObject module_exports) (named_host ()) =
      Returns (JSObject module_exports) w' t ∧
    Object_Get w' (JSObject module_exports) "language" =
      Some (JSExternal 0 nullptr) ∧
    (nullptr = nullptr →
     Object_Get w' (JSObject module_exports) "language" =
       Some (JSExternal 0 nullptr)).
Proof.
  do 2 (split; [reflexivity |]).
  apply (Init_no_null_check (static_grammar nullptr) refusing_setter);
    reflexivity.
Defined.

Lemma Init_step_order_witness :
  writable (used_host not_built) module_exports "name" = true ∧
  writable (used_host not_built) module_exports "language" = true ∧
  ∃ w1 w2 w3,
    Init (cached_grammar 4096) refusing_setter main_env
      (JSObject module_exports) (used_host not_built) =
      Returns (JSObject module_exports) w3
        [ (EvSet (JSObject module_exports) "name" (JSString "coral"), w1);
          (EvCall 4096, w2);
          (EvSet (JSObject module_exports) "language" (JSExternal 0 4096),
           w3) ] ∧
    Object_Get w1 (JSObject module_exports) "language" =
      Object_Get (used_host not_built) (JSObject module_exports) "language" ∧
    Object_Get w2 (JSObject module_exports) "language" =
      Object_Get (used_host not_built) (JSObject module_exports) "language" ∧
    grammar w1 = not_built ∧
    (∀ wi, wi ∈ [w1; w2; w3] →
       Object_Get wi (JSObject module_exports) "name" =
         Some (JSString "coral") ∧
       ¬ (is_Some (Object_Get wi (JSObject module_exports) "language") ∧
          Object_Get wi (JSObject module_exports) "name" = None)).
Proof.
  do 2 (split; [reflexivity |]).
  apply (Init_step_order (cached_grammar 4096) refusing_setter); reflexivity.
Defined.

(** C10 as the spec states it fails on a container whose "name" is
    read-only: next to an empty container, and from the same state of the
    library, the two end with different values under "name"; the entry that
    was there is not overwritten and decides the result. *)
Lemma Init_result_depends_on_read_only_name :
  ∃ w1' t1 w2' t2,
    Init (static_grammar 4096) refusing_setter main_env
      (JSObject module_exports) (fresh_host ()) =
      Returns (JSObject module_exports) w1' t1 ∧
    Init (static_grammar 4096) refusing_setter main_env
      (JSObject module_exports) (named_host ()) =
      Returns (JSObject module_exports) w2' t2 ∧
    Object_Get w1' (JSObject module_exports) "name" =
      Some (JSString "coral") ∧
    Object_Get w2' (JSObject module_exports) "name" =
      Some (JSString "other") ∧
    Object_Get w1' (JSObject module_exports) "name" ≠
      Object_Get w2' (JSObject module_exports) "name".
Proof.
  eexists _, _, _, _. do 2 (split; [vm_compute; reflexivity |]).
  do 2 (split; [reflexivity |]). discriminate.
Qed.

(** An empty container and one that already holds entries, on two objects
    of two hosts. *)
Lemma Init_noninterference_witness :
  writable (World (heap (fresh_host ())) 0 ()) module_exports "name" = true ∧
  writable (World (heap (fresh_host ())) 0 ()) module_exports "language"
    = true ∧
  writable (World (heap (used_host ())) 7 ()) other_object "name" = true ∧
  writable (World (heap (used_host ())) 7 ()) other_object "language"
    = true ∧
  ∃ w1' t1 w2' t2 id1 id2 handle,
    Init (static_grammar 4096) refusing_setter main_env
      (JSObject module_exports) (World (heap (fresh_host ())) 0 ()) =
      Returns (JSObject module_exports) w1' t1 ∧
    Init (static_grammar 4096) refusing_setter main_env
      (JSObject other_object) (World (heap (used_host ())) 7 ()) =
      Returns (JSObject other_object) w2' t2 ∧
    Object_Get w1' (JSObject module_exports) "name" =
      Some (JSString "coral") ∧
    Object_Get w2' (JSObject other_object) "name" = Some (JSString "coral") ∧
    Object_Get w1' (JSObject module_exports) "language" =
      Some (JSExternal id1 handle) ∧
    Object_Get w2' (JSObject other_object) "language" =
      Some (JSExternal id2 handle) ∧
    grammar w1' = grammar w2'.
Proof.
  do 4 (split; [reflexivity |]).
  apply (Init_noninterference (static_grammar 4096) refusing_setter);
    reflexivity.
Defined.

(** Another entry of a used container, through a run. *)
Lemma Init_keeps_other_entries_witness :
  writable (used_host ()) module_exports "name" = true ∧
  writable (used_host ()) module_exports "language" = true ∧
  "version" ≠ "name" ∧
  "version" ≠ "language" ∧
  ∃ w' t,
    Init (static_grammar 4096) refusing_setter main_env
      (JSObject module_exports) (used_host ()) =
      Returns (JSObject module_exports) w' t ∧
    own_property w' module_exports "version" =
      own_property (used_host ()) module_exports "version" ∧
    Object_Get w' (JSObject module_exports) "version" =
      Object_Get (used_host ()) (JSObject module_exports) "version" ∧
    (∀ e wi, (e, wi) ∈ t →
       own_property wi module_exports "version" =
         own_property (used_host ()) module_exports "version" ∧
       Object_Get wi (JSObject module_exports) "version" =
         Object_Get (used_host ()) (JSObject module_exports) "version").
Proof.
  do 2 (split; [reflexivity |]). do 2 (split; [done |]).
  apply (Init_keeps_other_entries (static_grammar 4096) refusing_setter);
    [reflexivity | reflexivity | done | done].
Defined.

(** The caching library, loaded twice into one container. *)
Lemma Init_again_witness :
  writable (used_host not_built) module_exports "name" = true ∧
  writable (used_host not_built) module_exports "language" = true ∧
  (cached_grammar 4096 (cached_grammar 4096 not_built).2).1 =
    (cached_grammar 4096 not_built).1 ∧
  ∃ w1 t1 w2 t2 id1 id2 handle,
    Init (cached_grammar 4096) refusing_setter main_env
      (JSObject module_exports) (used_host not_built) =
      Returns (JSObject module_exports) w1 t1 ∧
    Init (cached_grammar 4096) refusing_setter main_env
      (JSObject module_exports) w1 =
      Returns (JSObject module_exports) w2 t2 ∧
    Object_Get w1 (JSObject module_exports) "language" =
      Some (JSExternal id1 handle) ∧
    Object_Get w2 (JSObject module_exports) "language" =
      Some (JSExternal id2 handle) ∧
    id1 ≠ id2 ∧
    (∀ o' key, o' ≠ module_exports ∨ key ≠ "language" →
       own_property w2 o' key = own_property w1 o' key) ∧
    Object_Keys w2 (JSObject module_exports) =
      Object_Keys w1 (JSObject module_exports) ∧
    anonymous (heap w2) = anonymous (heap w1) ∧
    grammar w2 = calls (cached_grammar 4096) 2 not_built.
Proof.
  do 3 (split; [reflexivity |]).
  apply (Init_again (cached_grammar 4096) refusing_setter); reflexivity.
Defined.

(** The two objects of a used host, populated in either order. *)
Lemma Init_commutes_witness :
  module_exports ≠ other_object ∧
  writable (used_host not_built) module_exports "name" = true ∧
  writable (used_host not_built) module_exports "language" = true ∧
  writable (used_host not_built) other_object "name" = true ∧
  writable (used_host not_built) other_object "language" = true ∧
  (cached_grammar 4096 (cached_grammar 4096 not_built).2).1 =
    (cached_grammar 4096 not_built).1 ∧
  ∃ wa ta wb tb wab tab wba tba,
    Init (cached_grammar 4096) refusing_setter main_env
      (JSObject module_exports) (used_host not_built) =
      Returns (JSObject module_exports) wa ta ∧
    Init (cached_grammar 4096) refusing_setter main_env
      (JSObject other_object) wa = Returns (JSObject other_object) wab tab ∧
    Init (cached_grammar 4096) refusing_setter main_env
      (JSObject other_object) (used_host not_built) =
      Returns (JSObject other_object) wb tb ∧
    Init (cached_grammar 4096) refusing_setter main_env
      (JSObject module_exports) wb = Returns (JSObject module_exports) wba tba ∧
    anonymous (heap wab) = anonymous (heap wba) ∧
    externals wab = externals wba ∧
    grammar wab = grammar wba.
Proof.
  split; [done |]. do 5 (split; [reflexivity |]).
  apply (Init_commutes (cached_grammar 4096) refusing_setter);
    [done | reflexivity ..].
Defined.

(** A setter on "name" that refuses the store. *)
Lemma Init_raises_at_name_witness :
  heap (guarded_host not_built) !! module_exports =
    Some (Object {[ "name" := Accessor (Some 0%nat) ]} true) ∧
  props (Object {[ "name" := Accessor (Some 0%nat) ]} true) !! "name" =
    Some (Accessor (Some 0%nat)) ∧
  refusing_setter 0 (JSObject module_exports) (JSString "coral")
    (heap (guarded_host not_built)) =
    (Some (JSString "denied"), heap (guarded_host not_built)) ∧
  ∃ w',
    Init (cached_grammar 4096) refusing_setter main_env
      (JSObject module_exports) (guarded_host not_built) =
      Raises (Thrown (JSString "denied")) w'
        [(EvSet (JSObject module_exports) "name" (JSString "coral"), w')] ∧
    heap w' = heap (guarded_host not_built) ∧
    grammar w' = not_built ∧
    externals w' = 0%nat.
Proof.
  do 3 (split; [reflexivity |]).
  apply (Init_raises_at_name (cached_grammar 4096) refusing_setter main_env
           module_exports (guarded_host not_built)
           (Object {[ "name" := Accessor (Some 0%nat) ]} true) 0%nat
           (JSString "denied") (heap (guarded_host not_built)));
    reflexivity.
Defined.

(** A setter on "language" that refuses the store. *)
Lemma Init_raises_at_language_witness :
  heap (guarded_language_host not_built) !! module_exports =
    Some (Object {[ "language" := Accessor (Some 0%nat) ]} true) ∧
  can_store (Object {[ "language" := Accessor (Some 0%nat) ]} true) "name"
    = true ∧
  props (Object {[ "language" := Accessor (Some 0%nat) ]} true) !! "language"
    = Some (Accessor (Some 0%nat)) ∧
  refusing_setter 0 (JSObject module_exports) (JSExternal 0 4096)
    (<[module_exports :=
         put (Object {[ "language" := Accessor (Some 0%nat) ]} true)
           "name" (JSString "coral")]>
       (heap (guarded_language_host not_built))) =
    (Some (JSString "denied"),
     <[module_exports :=
         put (Object {[ "language" := Accessor (Some 0%nat) ]} true)
           "name" (JSString "coral")]>
       (heap (guarded_language_host not_built))) ∧
  ∃ w1 w2 w',
    Init (cached_grammar 4096) refusing_setter main_env
      (JSObject module_exports) (guarded_language_host not_built) =
      Raises (Thrown (JSString "denied")) w'
        [ (EvSet (JSObject module_exports) "name" (JSString "coral"), w1);
          (EvCall 4096, w2);
          (EvSet (JSObject module_exports) "language" (JSExternal 0 4096),
           w') ] ∧
    Object_Get w1 (JSObject module_exports) "name" = Some (JSString "coral") ∧
    Object_Get w2 (JSObject module_exports) "name" = Some (JSString "coral") ∧
    heap w' =
      <[module_exports :=
          put (Object {[ "language" := Accessor (Some 0%nat) ]} true)
            "name" (JSString "coral")]>
        (heap (guarded_language_host not_built)) ∧
    grammar w' = Some 4096 ∧
    externals w' = 1%nat.
Proof.
  do 4 (split; [reflexivity |]).
  apply (Init_raises_at_language (cached_grammar 4096) refusing_setter
           main_env module_exports (guarded_language_host not_built)
           (Object {[ "language" := Accessor (Some 0%nat) ]} true) 0%nat
           (JSString "denied"));
    reflexivity.
Defined.

(** A frozen container. *)
Lemma Init_on_frozen_witness :
  heap (frozen_host not_built) !! module_exports =
    Some (Object {[ "version" := Data (JSString "0.1.0") false ]} false) ∧
  can_store (Object {[ "version" := Data (JSString "0.1.0") false ]} false)
    "name" = false ∧
  can_store (Object {[ "version" := Data (JSString "0.1.0") false ]} false)
    "language" = false ∧
  no_setter (Object {[ "version" := Data (JSString "0.1.0") false ]} false)
    "name" = true ∧
  no_setter (Object {[ "version" := Data (JSString "0.1.0") false ]} false)
    "language" = true ∧
  ∃ w' t,
    Init (cached_grammar 4096) refusing_setter main_env
      (JSObject module_exports) (frozen_host not_built) =
      Returns (JSObject module_exports) w' t ∧
    heap w' = heap (frozen_host not_built) ∧
    grammar w' = Some 4096 ∧
    externals w' = 1%nat ∧
    returned t = true.
Proof.
  do 5 (split; [reflexivity |]).
  apply (Init_on_frozen (cached_grammar 4096) refusing_setter main_env
           module_exports (frozen_host not_built)
           (Object {[ "version" := Data (JSString "0.1.0") false ]} false));
    reflexivity.
Defined.
